(** * netbug / rdb: the prefix router of [register.go]

    A shallow embedding of [Register], of the request handler [h] it
    installs, and of the package-level index template [indexTmpl],
    together with the parts of the Go standard library the code calls:
    [strings.TrimPrefix], [text/template] (parsing and execution of the
    constructs the index template uses), [runtime/pprof] (profile
    enumeration and live sample counts) and [net/http] (requests,
    response writers and the [ServeMux] route table). *)

From Stdlib Require Import ZArith List Bool Ascii String Lia DecimalString.
From stdpp Require Import base option strings gmap.

Set Warnings "-register-all".

Local Open Scope string_scope.
Local Open Scope list_scope.

(** ** Byte strings *)

(** The double quote, which the template text needs inside [href]
    attributes. *)
Definition dq : string := String "034"%char EmptyString.

(** [strconv]-style decimal rendering of an [int], as [fmt] prints it. *)
Definition itoa (z : Z) : string := NilZero.string_of_int (Z.to_int z).

Module Strings.

(** [strings.HasPrefix(s, prefix)]:
    [len(s) >= len(prefix) && s[:len(prefix)] == prefix]. *)
Fixpoint HasPrefix (s prefix : string) {struct prefix} : bool :=
  match prefix, s with
  | EmptyString, _ => true
  | String _ _, EmptyString => false
  | String c prefix', String d s' => Ascii.eqb c d && HasPrefix s' prefix'
  end.

(** [s[n:]] for [n <= len(s)]. *)
Fixpoint drop (n : nat) (s : string) : string :=
  match n, s with
  | O, _ => s
  | S _, EmptyString => EmptyString
  | S n', String _ s' => drop n' s'
  end.

(** [strings.TrimPrefix(s, prefix)]: [s] without the leading [prefix];
    [s] itself when it does not start with [prefix]. *)
Definition TrimPrefix (s prefix : string) : string :=
  if HasPrefix s prefix then drop (String.length prefix) s else s.

(** [strings.HasSuffix(s, suffix)]. *)
Definition HasSuffix (s suffix : string) : bool :=
  (String.length suffix <=? String.length s)%nat
  && String.eqb (drop (String.length s - String.length suffix) s) suffix.

(** [strings.Contains(s, substr)], as a proposition. *)
Definition Contains (s substr : string) : Prop :=
  exists a b, s = a +:+ substr +:+ b.

End Strings.

(** ** runtime/pprof *)

Module pprof.

(** A [*pprof.Profile]: the name is fixed when the profile is created,
    [addr] stands for the pointer's identity.  The samples themselves
    live in the runtime and change as the program runs. *)
Record Profile := mkProfile { Name : string; addr : nat }.

(** The state of the runtime's profile registry: the profiles known at
    the moment (in the order [pprof.Profiles()] lists them) and the
    current number of samples of each. *)
Record Runtime := mkRuntime {
  registry : list Profile;
  samples : nat -> Z
}.

(** [pprof.Profiles()]: a fresh slice of all the known profiles. *)
Definition Profiles (rt : Runtime) : list Profile := registry rt.

(** [Profile.Count()]: the number of samples currently in the
    profile. *)
Definition Count (rt : Runtime) (p : Profile) : Z := samples rt (addr p).

End pprof.

(** ** text/template *)

Module template.

(** What a template writes, in order.  Each write is recorded with its
    origin: the literal text of the template ([Static]) or the printed
    value of an action ([Dynamic]). *)
Inductive chunk :=
| Static (s : string)
| Dynamic (s : string).

Definition chunk_text (c : chunk) : string :=
  match c with Static s => s | Dynamic s => s end.

(** The bytes a sequence of writes leaves on the wire. *)
Fixpoint text_of (cs : list chunk) : string :=
  match cs with
  | [] => EmptyString
  | c :: cs' => chunk_text c +:+ text_of cs'
  end.

(** The data a template is executed on, as reflection sees it. *)
Inductive value :=
| VString (s : string)
| VInt (z : Z)
| VSlice (vs : list value)
| VStruct (fields : list (string * value))
| VProfile (p : pprof.Profile).

(** [.A.B] relative to dot, [$.A.B] relative to the data passed to
    [Execute]; no field at all is [.] or [$] itself. *)
Inductive expr :=
| Dot (fields : list string)
| Dollar (fields : list string).

Inductive node :=
| TextNode (s : string)
| ActionNode (e : expr)
| RangeNode (e : expr) (body : list node).

Definition Template := list node.

Inductive result (A : Type) :=
| Ok (a : A)
| Err (msg : string).
Arguments Ok {A} a.
Arguments Err {A} msg.

(** *** Parse *)

Inductive item :=
| ItemText (s : string)
| ItemAction (s : string).

Definition snoc (s : string) (c : ascii) : string :=
  s +:+ String c EmptyString.

(** Text is emitted only when there is some. *)
Definition emit_text (cur : string) (rest : list item) : list item :=
  match cur with
  | EmptyString => rest
  | _ => ItemText cur :: rest
  end.

Definition map_result {A B} (f : A -> B) (r : result A) : result B :=
  match r with Ok a => Ok (f a) | Err m => Err m end.

(** The lexer: text up to the left delimiter, then the action up to
    the right delimiter.  [inside] says which of the two is being
    read and [cur] holds what has been read of it. *)
Fixpoint lex (inside : bool) (cur input : string) : result (list item) :=
  match input with
  | EmptyString =>
      if inside then Err "unclosed action" else Ok (emit_text cur [])
  | String c rest =>
      match rest with
      | EmptyString =>
          if inside then Err "unclosed action"
          else Ok (emit_text (snoc cur c) [])
      | String d rest' =>
          if inside then
            if Ascii.eqb c "}" && Ascii.eqb d "}"
            then map_result (cons (ItemAction cur)) (lex false EmptyString rest')
            else lex true (snoc cur c) rest
          else
            if Ascii.eqb c "{" && Ascii.eqb d "{"
            then map_result (emit_text cur) (lex true EmptyString rest')
            else lex false (snoc cur c) rest
      end
  end.

(** [s] split at every occurrence of [sep]. *)
Fixpoint split (sep : ascii) (s : string) : list string :=
  match s with
  | EmptyString => [EmptyString]
  | String c s' =>
      if Ascii.eqb c sep then EmptyString :: split sep s'
      else match split sep s' with
           | [] => [String c EmptyString]
           | w :: ws => String c w :: ws
           end
  end.

Definition nonempty (s : string) : bool :=
  match s with EmptyString => false | _ => true end.

(** The space-separated words of an action. *)
Definition words (s : string) : list string :=
  filter (fun w => nonempty w = true) (split " " s).

Definition is_alnum (c : ascii) : bool :=
  let n := nat_of_ascii c in
  ((48 <=? n) && (n <=? 57) || (65 <=? n) && (n <=? 90)
   || (97 <=? n) && (n <=? 122) || (n =? 95))%nat.

Fixpoint all_alnum (s : string) : bool :=
  match s with
  | EmptyString => true
  | String c s' => is_alnum c && all_alnum s'
  end.

Definition is_ident (s : string) : bool := nonempty s && all_alnum s.

(** A chain of field names, [A.B.C]. *)
Definition parse_chain (s : string) : result (list string) :=
  let names := split "." s in
  if forallb is_ident names then Ok names else Err "bad character in action".

Definition parse_expr (w : string) : result expr :=
  match w with
  | String "." EmptyString => Ok (Dot [])
  | String "." chain => map_result Dot (parse_chain chain)
  | String "$" EmptyString => Ok (Dollar [])
  | String "$" (String "." chain) => map_result Dollar (parse_chain chain)
  | _ => Err "function not defined"
  end.

Inductive action :=
| AEnd
| ARange (e : expr)
| APrint (e : expr).

Definition parse_action (s : string) : result action :=
  match words s with
  | [w] => if String.eqb w "end" then Ok AEnd else map_result APrint (parse_expr w)
  | [k; w] =>
      if String.eqb k "range" then map_result ARange (parse_expr w)
      else Err "unexpected token in action"
  | [] => Err "missing value for command"
  | _ => Err "unexpected token in action"
  end.

(** The tree is built with a stack of the ranges that are still open:
    [cur] holds the nodes of the innermost list read so far, last
    first. *)
Fixpoint build (items : list item) (cur : list node)
    (open : list (expr * list node)) : result Template :=
  match items with
  | [] =>
      match open with
      | [] => Ok (rev cur)
      | _ :: _ => Err "unexpected EOF"
      end
  | ItemText s :: items' => build items' (TextNode s :: cur) open
  | ItemAction a :: items' =>
      match parse_action a with
      | Err m => Err m
      | Ok AEnd =>
          match open with
          | [] => Err "unexpected {{end}}"
          | (e, outer) :: open' =>
              build items' (RangeNode e (rev cur) :: outer) open'
          end
      | Ok (ARange e) => build items' [] ((e, cur) :: open)
      | Ok (APrint e) => build items' (ActionNode e :: cur) open
      end
  end.

(** [template.New(name).Parse(text)]. *)
Definition Parse (text : string) : result Template :=
  match lex false EmptyString text with
  | Err m => Err m
  | Ok items => build items [] []
  end.

(** [template.Must]: the template, or a panic ([None]) when parsing
    failed. *)
Definition Must (r : result Template) : option Template :=
  match r with
  | Ok t => Some t
  | Err _ => None
  end.

(** *** Execute *)

Fixpoint assoc (name : string) (fields : list (string * value)) : option value :=
  match fields with
  | [] => None
  | (k, v) :: fields' => if String.eqb k name then Some v else assoc name fields'
  end.

(** [.name] on [v]: a field of a struct, or a niladic method of a
    profile, called on the runtime as it is now. *)
Definition field (rt : pprof.Runtime) (v : value) (name : string) : result value :=
  match v with
  | VStruct fields =>
      match assoc name fields with
      | Some x => Ok x
      | None => Err "can't evaluate field"
      end
  | VProfile p =>
      if String.eqb name "Count" then Ok (VInt (pprof.Count rt p))
      else if String.eqb name "Name" then Ok (VString (pprof.Name p))
      else Err "can't evaluate field"
  | _ => Err "can't evaluate field"
  end.

Fixpoint chain (rt : pprof.Runtime) (v : value) (names : list string) : result value :=
  match names with
  | [] => Ok v
  | n :: names' =>
      match field rt v n with
      | Ok x => chain rt x names'
      | Err m => Err m
      end
  end.

Definition eval (rt : pprof.Runtime) (root dot : value) (e : expr) : result value :=
  match e with
  | Dot names => chain rt dot names
  | Dollar names => chain rt root names
  end.

(** What [fmt.Fprint] writes for a value.  Strings go out as they
    are; nothing is escaped.  Printing a slice, a struct or a pointer
    is not modelled (the index template prints none). *)
Definition print (v : value) : result string :=
  match v with
  | VString s => Ok s
  | VInt z => Ok (itoa z)
  | _ => Err "value not printable in this model"
  end.

(** One node: the writes it makes, and the error that stopped it, if
    any.  [root] is [$], [dot] the current cursor. *)
Fixpoint exec (rt : pprof.Runtime) (root dot : value) (n : node)
    {struct n} : list chunk * option string :=
  match n with
  | TextNode s => ([Static s], None)
  | ActionNode e =>
      match eval rt root dot e with
      | Err m => ([], Some m)
      | Ok v =>
          match print v with
          | Ok s => ([Dynamic s], None)
          | Err m => ([], Some m)
          end
      end
  | RangeNode e body =>
      match eval rt root dot e with
      | Ok (VSlice vs) =>
          (fix each (vs : list value) : list chunk * option string :=
             match vs with
             | [] => ([], None)
             | v :: vs' =>
                 match
                   (fix seq (ns : list node) : list chunk * option string :=
                      match ns with
                      | [] => ([], None)
                      | n' :: ns' =>
                          match exec rt root v n' with
                          | (out, None) =>
                              let (out', err) := seq ns' in (out ++ out', err)
                          | (out, Some m) => (out, Some m)
                          end
                      end) body
                 with
                 | (out, None) => let (out', err) := each vs' in (out ++ out', err)
                 | (out, Some m) => (out, Some m)
                 end
             end) vs
      | Ok _ => ([], Some "range can't iterate over value")
      | Err m => ([], Some m)
      end
  end.

(** A list of nodes, in order, up to the first error. *)
Fixpoint exec_list (rt : pprof.Runtime) (root dot : value) (ns : list node)
    : list chunk * option string :=
  match ns with
  | [] => ([], None)
  | n :: ns' =>
      match exec rt root dot n with
      | (out, None) =>
          let (out', err) := exec_list rt root dot ns' in (out ++ out', err)
      | (out, Some m) => (out, Some m)
      end
  end.

(** The body of a range, once per element. *)
Fixpoint exec_each (rt : pprof.Runtime) (root : value) (body : list node)
    (vs : list value) : list chunk * option string :=
  match vs with
  | [] => ([], None)
  | v :: vs' =>
      match exec_list rt root v body with
      | (out, None) =>
          let (out', err) := exec_each rt root body vs' in (out ++ out', err)
      | (out, Some m) => (out, Some m)
      end
  end.

(** [t.Execute(w, data)], as far as the template goes: the writes
    made to [w] and the error returned. *)
Definition Execute (rt : pprof.Runtime) (t : Template) (data : value)
    : list chunk * option string :=
  exec_list rt data data t.

End template.

(** ** net/http *)

Module http.

Record url_URL := mkURL { Path : string; RawQuery : string }.

Record Request := mkRequest { Method : string; URL : url_URL }.

Definition StatusOK : Z := 200.

(** What has been sent through an [http.ResponseWriter]: the status,
    once the header is out, and the writes made to the body. *)
Record ResponseWriter := mkResponseWriter {
  status : option Z;
  body : list template.chunk
}.

(** A response nothing has been written to yet. *)
Definition fresh : ResponseWriter :=
  {| status := None; body := [] |}.

(** [w.Write]: the first write sends the header with [StatusOK]
    unless a status was set before.  Writes are taken to reach the
    client. *)
Definition write (w : ResponseWriter) (c : template.chunk) : ResponseWriter :=
  {| status := Some (default StatusOK (status w)); body := body w ++ [c] |}.

Definition write_all (w : ResponseWriter) (cs : list template.chunk)
    : ResponseWriter :=
  fold_left write cs w.

(** A handler writes to the response and may read or change the state
    of the runtime's profile registry. *)
Definition HandlerFunc : Type :=
  ResponseWriter -> Request -> pprof.Runtime -> ResponseWriter * pprof.Runtime.

(** The route table of an [http.ServeMux], by pattern. *)
Abbreviation ServeMux := (gmap string HandlerFunc).

(** What a [ServeMux] refuses to register.  That is the mux's business
    and differs between releases of net/http: every release refuses
    the empty pattern and a pattern that is registered already; later
    ones also refuse a pattern they cannot parse and one that conflicts
    with a registered pattern.  [refuses] is the mux's verdict on a
    pattern, given the patterns registered so far; the two laws are
    what all releases share. *)
Record Rules := mkRules {
  refuses : gset string -> string -> bool;
  refuses_empty : forall registered, refuses registered EmptyString = true;
  refuses_registered :
    forall registered pattern,
      pattern ∈ registered -> refuses registered pattern = true
}.

(** [mux.HandleFunc(pattern, handler)]: the route table with the
    handler added at [pattern]; it panics ([None]) when the mux refuses
    the pattern. *)
Definition HandleFunc (rules : Rules) (pattern : string) (handler : HandlerFunc)
    (mux : ServeMux) : option ServeMux :=
  if refuses rules (dom mux) pattern then None
  else Some (<[pattern := handler]> mux).

(** The rules of a mux that refuses the empty pattern and a registered
    pattern, and nothing else. *)
Definition refuses_exact (registered : gset string) (pattern : string) : bool :=
  String.eqb pattern EmptyString || bool_decide (pattern ∈ registered).

Lemma refuses_exact_empty registered :
  refuses_exact registered EmptyString = true.
Proof. reflexivity. Qed.

Lemma refuses_exact_registered registered pattern :
  pattern ∈ registered -> refuses_exact registered pattern = true.
Proof.
  intros Hin; unfold refuses_exact.
  rewrite (bool_decide_eq_true_2 _ Hin); apply orb_true_r.
Qed.

Definition exact : Rules :=
  mkRules refuses_exact refuses_exact_empty refuses_exact_registered.

End http.

(** ** net/http/pprof *)

Module nhpprof.

(** The handlers of [net/http/pprof] the router delegates to.  They
    are not part of this package: the development is parametric in
    them. *)
Record handlers := mkHandlers {
  Cmdline : http.HandlerFunc;
  Profile : http.HandlerFunc;
  Symbol : http.HandlerFunc;
  Handler : string -> http.HandlerFunc
}.

End nhpprof.

(** ** The package *)

(** The text of the index template. *)
Definition indexText : string :=
"<html>
  <head>
    <title>{{.Prefix}}debug/pprof/</title>
  </head>
  {{.Prefix}}debug/pprof/<br>
  <br>
  <body>
    profiles:<br>
    <table>
    {{range .Profiles}}
      <tr><td align=right>{{.Count}}<td><a href=" +:+ dq +:+
"{{$.Prefix}}debug/pprof/{{.Name}}?debug=1" +:+ dq +:+
">{{.Name}}</a>
    {{end}}
    <tr><td align=right><td><a href=" +:+ dq +:+
"{{$.Prefix}}debug/pprof/profile" +:+ dq +:+
">CPU</a>
    </table>
    <br>
    debug information:<br>
    <table>
    {{range .Info}}
      <tr><td align=right><td><a href=" +:+ dq +:+
"{{$.Prefix}}debug/pprof/{{.}}" +:+ dq +:+
">{{.}}</a>
    {{end}}
    <tr><td align=right><td><a href=" +:+ dq +:+
"{{.Prefix}}debug/pprof/goroutine?debug=2" +:+ dq +:+
">full goroutine stack dump</a><br>
    <table>
  </body>
</html>".

(** Package initialisation:
    [template.Must(template.New("index").Parse(...))], run once when
    the package is loaded.  [None] is the panic that aborts startup. *)
Definition init_indexTmpl : option template.Template :=
  template.Must (template.Parse indexText).

(** The package variable [indexTmpl], as the handlers see it once
    initialisation is over. *)
Definition indexTmpl : template.Template :=
  match init_indexTmpl with
  | Some t => t
  | None => []
  end.

(** The anonymous struct [Register] hands to the template. *)
Record tmpInfo_t := mkTmpInfo {
  Profiles : list pprof.Profile;
  Info : list string;
  Prefix : string
}.

(** [tmpInfo] as the template engine's reflection sees it. *)
Definition reflect (data : tmpInfo_t) : template.value :=
  template.VStruct
    [ ("Profiles", template.VSlice (map template.VProfile (Profiles data)));
      ("Info", template.VSlice (map template.VString (Info data)));
      ("Prefix", template.VString (Prefix data)) ].

(** The local variable [tmpInfo] of [Register], built when the runtime
    is in state [rt]: the profiles are enumerated here, once. *)
Definition tmpInfo (prefix : string) (rt : pprof.Runtime) : tmpInfo_t :=
  {| Profiles := pprof.Profiles rt;
     Info := ["cmdline"; "symbol"];
     Prefix := prefix |}.

(** The value of the local variable [name] of [h] for a request. *)
Definition name_of (prefix : string) (r : http.Request) : string :=
  Strings.TrimPrefix (http.Path (http.URL r)) (prefix +:+ "debug/pprof/").

(** A request for the index page under [prefix]. *)
Definition index_request (method prefix query : string) : http.Request :=
  http.mkRequest method (http.mkURL (prefix +:+ "debug/pprof/") query).

(** The request a client makes when it follows a link of the page to
    [target], with the query the link carries. *)
Definition follow (target query : string) : http.Request :=
  http.mkRequest "GET" (http.mkURL target query).

Section Router.

Variable rules : http.Rules.
Variable ext : nhpprof.handlers.

(** The closure [h] of [Register], with the variables it captures
    ([prefix] and [tmpInfo]) as parameters.  The error [Execute]
    returns is dropped, as in the source. *)
Definition h (prefix : string) (info : tmpInfo_t) : http.HandlerFunc :=
  fun w r rt =>
    let name :=
      Strings.TrimPrefix (http.Path (http.URL r)) (prefix +:+ "debug/pprof/") in
    if String.eqb name EmptyString then
      (* Index page. *)
      (http.write_all w (fst (template.Execute rt indexTmpl (reflect info))), rt)
    else if String.eqb name "cmdline" then nhpprof.Cmdline ext w r rt
    else if String.eqb name "profile" then nhpprof.Profile ext w r rt
    else if String.eqb name "symbol" then nhpprof.Symbol ext w r rt
    else
      (* Provides access to all profiles under runtime/pprof *)
      nhpprof.Handler ext name w r rt.

(** [Register(prefix, mux)], run when the runtime is in state [rt] on
    a mux with the given rules: the new route table, or [None] when
    [mux.HandleFunc] panics. *)
Definition Register (prefix : string) (mux : http.ServeMux)
    (rt : pprof.Runtime) : option http.ServeMux :=
  http.HandleFunc rules prefix (h prefix (tmpInfo prefix rt)) mux.

(** The response to a request for the index under [prefix], served
    when the runtime is in state [rt] by the handler that [Register]
    installed when it was in state [rt0]. *)
Definition index_response (prefix : string) (rt0 rt : pprof.Runtime)
    (method query : string) : http.ResponseWriter :=
  fst (h prefix (tmpInfo prefix rt0) http.fresh
         (index_request method prefix query) rt).

(** *** The dispatch table, as data *)

(** The cases of the [switch] in [h]. *)
Inductive branch :=
| BIndex
| BCmdline
| BProfile
| BSymbol
| BNamed (name : string).

(** The case a name selects: the first [case] whose literal equals
    the name, [default] otherwise. *)
Definition selected (name : string) : branch :=
  if String.eqb name EmptyString then BIndex
  else if String.eqb name "cmdline" then BCmdline
  else if String.eqb name "profile" then BProfile
  else if String.eqb name "symbol" then BSymbol
  else BNamed name.

(** What each case does. *)
Definition run (info : tmpInfo_t) (b : branch) : http.HandlerFunc :=
  fun w r rt =>
    match b with
    | BIndex =>
        (http.write_all w (fst (template.Execute rt indexTmpl (reflect info))), rt)
    | BCmdline => nhpprof.Cmdline ext w r rt
    | BProfile => nhpprof.Profile ext w r rt
    | BSymbol => nhpprof.Symbol ext w r rt
    | BNamed name => nhpprof.Handler ext name w r rt
    end.

(** *** The closure and the variables it captures *)

(** The variables [h] closes over.  A Go closure holds them by
    reference: a statement of its body could assign to them, and the
    next call would see the new value. *)
Record Captured := mkCaptured {
  captured_prefix : string;
  captured_tmpInfo : tmpInfo_t
}.

(** A closure over such variables, as the server runs it: a call takes
    the captured variables as the last call left them and hands them
    back as it leaves them. *)
Definition Closure : Type :=
  Captured -> http.ResponseWriter -> http.Request -> pprof.Runtime ->
  Captured * (http.ResponseWriter * pprof.Runtime).

(** The body of [h] once more, statement by statement, with the
    captured variables as a store.  [name] is computed from [prefix];
    the index case reads [tmpInfo]; the delegates are handed [w] and
    [r] only; no statement assigns to [prefix] or to [tmpInfo], so that
    every case hands the store back as it took it. *)
Definition h_closure : Closure :=
  fun env w r rt =>
    let name :=
      Strings.TrimPrefix (http.Path (http.URL r))
        (captured_prefix env +:+ "debug/pprof/") in
    if String.eqb name EmptyString then
      (env,
       (http.write_all w
          (fst (template.Execute rt indexTmpl (reflect (captured_tmpInfo env)))),
        rt))
    else if String.eqb name "cmdline" then (env, nhpprof.Cmdline ext w r rt)
    else if String.eqb name "profile" then (env, nhpprof.Profile ext w r rt)
    else if String.eqb name "symbol" then (env, nhpprof.Symbol ext w r rt)
    else (env, nhpprof.Handler ext name w r rt).

(** *** Serving a sequence of requests *)

(** What lasts from one request to the next: the variables of the
    closure and the runtime. *)
Record State := mkState {
  captured : Captured;
  runtime : pprof.Runtime
}.

(** One request: the server hands the closure a response writer of its
    own; the captured variables and the runtime are then what the call
    left. *)
Definition step (c : Closure) (s : State) (r : http.Request)
    : State * http.ResponseWriter :=
  let '(env', (w, rt')) := c (captured s) http.fresh r (runtime s) in
  ({| captured := env'; runtime := rt' |}, w).

(** The requests of a list, one after the other: the state each request
    was served in with its response, and the state at the end. *)
Fixpoint serve (c : Closure) (s : State) (reqs : list http.Request)
    : list (State * http.ResponseWriter) * State :=
  match reqs with
  | [] => ([], s)
  | r :: reqs' =>
      let (s', w) := step c s r in
      let (trace, s'') := serve c s' reqs' in
      ((s, w) :: trace, s'')
  end.

(** What one request was served with, and what it was answered. *)
Definition served_with (env : Captured) (r : http.Request)
    (entry : State * http.ResponseWriter) : Prop :=
  captured (fst entry) = env /\
  snd entry =
  fst (h (captured_prefix env) (captured_tmpInfo env) http.fresh r
         (runtime (fst entry))).

End Router.

(** ** HTML-significant characters *)

(** The characters an HTML escaper replaces. *)
Definition html_significant (c : ascii) : bool :=
  Ascii.eqb c "<" || Ascii.eqb c ">" || Ascii.eqb c "&"
  || Ascii.eqb c "'" || Ascii.eqb c "034".

(** What may follow the ampersand of an entity an escaper writes. *)
Definition entity_names : list string :=
  ["amp;"; "lt;"; "gt;"; "quot;"; "apos;"; "#34;"; "#39;"].

(** A string in HTML-safe form: no HTML-significant character stands
    in it, other than the ampersand that starts an entity. *)
Fixpoint html_safe (s : string) : bool :=
  match s with
  | EmptyString => true
  | String c s' =>
      (if Ascii.eqb c "&" then existsb (Strings.HasPrefix s') entity_names
       else negb (html_significant c))
      && html_safe s'
  end.

(** The writes that carry a dynamic value. *)
Definition dynamic_of (cs : list template.chunk) : list string :=
  flat_map (fun c => match c with
                     | template.Dynamic s => [s]
                     | template.Static _ => []
                     end) cs.

(** ** Reading a page *)

(** An HTML anchor, as the template writes them. *)
Definition anchor (href label : string) : string :=
  "<a href=" +:+ dq +:+ href +:+ dq +:+ ">" +:+ label +:+ "</a>".

(** The table row of a profile: its sample count, then the link to its
    dump. *)
Definition profile_row (prefix name count : string) : string :=
  "<tr><td align=right>" +:+ count +:+ "<td>"
  +:+ anchor (prefix +:+ "debug/pprof/" +:+ name +:+ "?debug=1") name.

(** The row of a debug-information link. *)
Definition info_row (prefix name : string) : string :=
  "<tr><td align=right><td>" +:+ anchor (prefix +:+ "debug/pprof/" +:+ name) name.

(** [mid] in order, then [tail]. *)
Fixpoint join (mid : list string) (tail : string) : string :=
  match mid with
  | [] => tail
  | m :: mid' => m +:+ join mid' tail
  end.

(** A window on a sequence of writes: the first write ends with [a],
    the next ones are exactly [mid], and the one after starts with
    [b]. *)
Fixpoint window_mid (mid : list string) (b : string) (cs : list template.chunk)
    : Prop :=
  match cs with
  | [] => False
  | c :: cs' =>
      match mid with
      | [] => Strings.HasPrefix (template.chunk_text c) b = true
      | m :: mid' => template.chunk_text c = m /\ window_mid mid' b cs'
      end
  end.

Definition window (a : string) (mid : list string) (b : string)
    (cs : list template.chunk) : Prop :=
  match cs with
  | [] => False
  | c :: cs' =>
      Strings.HasSuffix (template.chunk_text c) a = true /\ window_mid mid b cs'
  end.

(** ** Sample data *)

Module Sample.

Definition heap : pprof.Profile := pprof.mkProfile "heap" 0.
Definition goroutine : pprof.Profile := pprof.mkProfile "goroutine" 1.

(** Two states of one runtime: the same profiles, other counts. *)
Definition rt0 : pprof.Runtime :=
  pprof.mkRuntime [goroutine; heap] (fun a => Z.of_nat a + 3)%Z.
Definition rt1 : pprof.Runtime :=
  pprof.mkRuntime [goroutine; heap] (fun a => Z.of_nat a + 40)%Z.

(** Delegates that answer with their own name, so that one can tell
    which one ran. *)
Definition answer (s : string) : http.HandlerFunc :=
  fun w _ rt => (http.write w (template.Dynamic s), rt).

Definition ext : nhpprof.handlers :=
  nhpprof.mkHandlers (answer "Cmdline") (answer "Profile") (answer "Symbol")
    (fun name => answer ("Handler " +:+ name)).

Definition get (path : string) : http.Request :=
  http.mkRequest "GET" (http.mkURL path EmptyString).
Definition post (path : string) : http.Request :=
  http.mkRequest "POST" (http.mkURL path EmptyString).

Definition no_routes : http.ServeMux := ∅.

(** For comparison, a closure that is not the one of this package: it
    answers as [h] does and then assigns the empty string to its
    [prefix]. *)
Definition rebinding : Closure :=
  fun env w r rt =>
    (mkCaptured EmptyString (captured_tmpInfo env),
     h ext (captured_prefix env) (captured_tmpInfo env) w r rt).

(** A runtime in which the application has created a profile of its
    own, with markup in its name. *)
Definition rt_markup : pprof.Runtime :=
  pprof.mkRuntime [pprof.mkProfile "<script>" 2; heap] (fun _ => 1%Z).

End Sample.

(** * Properties *)

(** ** Byte strings *)

Section StringFacts.

Import Strings.

Lemma append_cons (c : ascii) (s t : string) :
  String c s +:+ t = String c (s +:+ t).
Proof. reflexivity. Qed.

Lemma append_nil_r (s : string) : s +:+ EmptyString = s.
Proof.
  induction s as [|c s IH]; [reflexivity|].
  now rewrite append_cons, IH.
Qed.

Lemma append_assoc (a b c : string) : (a +:+ b) +:+ c = a +:+ (b +:+ c).
Proof.
  induction a as [|x a IH]; [reflexivity|].
  now rewrite !append_cons, IH.
Qed.

Lemma HasPrefix_app (p s : string) : HasPrefix (p +:+ s) p = true.
Proof.
  induction p as [|c p IH]; [reflexivity|].
  rewrite append_cons; cbn [HasPrefix].
  now rewrite Ascii.eqb_refl, IH.
Qed.

Lemma HasPrefix_inv (s p : string) :
  HasPrefix s p = true -> exists t, s = p +:+ t.
Proof.
  revert s; induction p as [|c p IH]; intros s H.
  - now exists s.
  - destruct s as [|d s]; cbn [HasPrefix] in H; [discriminate|].
    apply andb_true_iff in H as [Hc Hp].
    apply Ascii.eqb_eq in Hc; subst d.
    destruct (IH _ Hp) as [t ->].
    now exists t.
Qed.

Lemma drop_app (p s : string) : drop (String.length p) (p +:+ s) = s.
Proof.
  induction p as [|c p IH]; [reflexivity|].
  now rewrite append_cons.
Qed.

(** Trimming gives back what was appended to the prefix. *)
Lemma TrimPrefix_app (p s : string) : TrimPrefix (p +:+ s) p = s.
Proof.
  unfold TrimPrefix.
  now rewrite HasPrefix_app, drop_app.
Qed.

(** A string that does not start with the prefix is left alone. *)
Lemma TrimPrefix_other (s p : string) :
  HasPrefix s p = false -> TrimPrefix s p = s.
Proof.
  unfold TrimPrefix; now intros ->.
Qed.

Lemma drop_split (n : nat) (s : string) :
  (n <= String.length s)%nat -> exists a, s = a +:+ drop n s.
Proof.
  revert s; induction n as [|n IH]; intros s Hn.
  - now exists EmptyString.
  - destruct s as [|c s]; cbn [String.length] in Hn; [lia|].
    destruct (IH s) as [a Ha]; [lia|].
    exists (String c a).
    rewrite append_cons; cbn [drop]; now rewrite <- Ha.
Qed.

Lemma HasSuffix_inv (s suf : string) :
  HasSuffix s suf = true -> exists a, s = a +:+ suf.
Proof.
  unfold HasSuffix; intros H.
  apply andb_true_iff in H as [_ H].
  apply String.eqb_eq in H.
  destruct (drop_split (String.length s - String.length suf) s) as [a Ha]; [lia|].
  exists a; now rewrite <- H.
Qed.

Lemma Contains_refl (s : string) : Contains s s.
Proof. exists EmptyString, EmptyString; now rewrite append_nil_r. Qed.

Lemma Contains_app_l (s t x : string) : Contains s x -> Contains (s +:+ t) x.
Proof.
  intros (a & b & ->); exists a, (b +:+ t).
  now rewrite !append_assoc.
Qed.

Lemma Contains_app_r (s t x : string) : Contains t x -> Contains (s +:+ t) x.
Proof.
  intros (a & b & ->); exists (s +:+ a), b.
  now rewrite !append_assoc.
Qed.

Lemma Contains_trans (s t x : string) :
  Contains s t -> Contains t x -> Contains s x.
Proof.
  intros (a & b & ->) H.
  now apply Contains_app_r, Contains_app_l.
Qed.

End StringFacts.

(** ** text/template *)

Section TemplateFacts.

Import template.

Lemma text_of_app (a b : list chunk) :
  text_of (a ++ b) = text_of a +:+ text_of b.
Proof.
  induction a as [|c a IH]; [reflexivity|].
  cbn [app text_of]; now rewrite IH, append_assoc.
Qed.

(** A range runs its body once per element of the slice. *)
Lemma exec_RangeNode rt root dot e body :
  exec rt root dot (RangeNode e body) =
  match eval rt root dot e with
  | Ok (VSlice vs) => exec_each rt root body vs
  | Ok _ => ([], Some "range can't iterate over value")
  | Err m => ([], Some m)
  end.
Proof.
  cbn [exec].
  destruct (eval rt root dot e) as [[s|z|vs|fs|p]|m]; try reflexivity.
  induction vs as [|v vs IH]; [reflexivity|].
  cbn [exec_each]; rewrite <- IH; clear IH.
  match goal with
  | |- match ?inner body with _ => _ end = _ =>
      assert (Hseq : forall ns, inner ns = exec_list rt root v ns)
  end.
  { induction ns as [|n ns IHns]; [reflexivity|].
    cbn [exec_list]; now rewrite <- IHns. }
  now rewrite Hseq.
Qed.

(** When no element makes the body fail, the writes of a range are
    those of its body for each element, in order. *)
Lemma exec_each_ok rt root body vs :
  Forall (fun v => snd (exec_list rt root v body) = None) vs ->
  exec_each rt root body vs =
  (flat_map (fun v => fst (exec_list rt root v body)) vs, None).
Proof.
  induction 1 as [|v vs Hv _ IH]; [reflexivity|].
  cbn [exec_each flat_map].
  destruct (exec_list rt root v body) as [out [m|]]; cbn [fst snd] in *;
    [discriminate|].
  now rewrite IH.
Qed.

End TemplateFacts.

(** ** Reading a page *)

Section PageFacts.

Import Strings template.

Lemma window_mid_text mid b cs :
  window_mid mid b cs -> exists r, text_of cs = join mid b +:+ r.
Proof.
  revert cs; induction mid as [|m mid IH]; intros [|c cs] H; cbn in H; try easy.
  - destruct (HasPrefix_inv _ _ H) as [t Ht].
    exists (t +:+ text_of cs).
    cbn [text_of join]; now rewrite Ht, append_assoc.
  - destruct H as [<- H]; destruct (IH _ H) as [r Hr].
    exists r; cbn [text_of join]; now rewrite Hr, append_assoc.
Qed.

(** A window shows in the text of the writes. *)
Lemma window_Contains a mid b cs :
  window a mid b cs -> Contains (text_of cs) (a +:+ join mid b).
Proof.
  destruct cs as [|c cs]; [easy|]; intros [Ha Hm].
  destruct (HasSuffix_inv _ _ Ha) as [a' Ha'].
  destruct (window_mid_text _ _ _ Hm) as [r Hr].
  exists a', r.
  cbn [text_of]; now rewrite Ha', Hr, !append_assoc.
Qed.

Lemma Contains_skip c cs x :
  Contains (text_of cs) x -> Contains (text_of (c :: cs)) x.
Proof. apply Contains_app_r. Qed.

Lemma Contains_text_app_l cs cs' x :
  Contains (text_of cs) x -> Contains (text_of (cs ++ cs')) x.
Proof. rewrite text_of_app; apply Contains_app_l. Qed.

Lemma Contains_text_app_r cs cs' x :
  Contains (text_of cs') x -> Contains (text_of (cs ++ cs')) x.
Proof. rewrite text_of_app; apply Contains_app_r. Qed.

Lemma Contains_flat_map {A} (f : A -> list chunk) (l : list A) (v : A) x :
  In v l -> Contains (text_of (f v)) x -> Contains (text_of (flat_map f l)) x.
Proof.
  induction l as [|u l IH]; [easy|].
  intros [->|Hv] Hx; cbn [flat_map].
  - now apply Contains_text_app_l.
  - now apply Contains_text_app_r, IH.
Qed.

Lemma flat_map_map {A B C} (f : B -> list C) (g : A -> B) (l : list A) :
  flat_map f (map g l) = flat_map (fun x => f (g x)) l.
Proof.
  induction l as [|u l IH]; [reflexivity|].
  cbn [map flat_map]; now rewrite IH.
Qed.

Lemma flat_map_agree {A B} (f g : A -> list B) (l : list A) :
  Forall (fun x => f x = g x) l -> flat_map f l = flat_map g l.
Proof.
  induction 1 as [|x l Hx _ IH]; [reflexivity|].
  cbn [flat_map]; now rewrite Hx, IH.
Qed.

End PageFacts.

(** Symbolic execution of the index template on [reflect data]. *)
Ltac exec_index :=
  unfold template.Execute, indexTmpl;
  let t := fresh "t" in
  set (t := init_indexTmpl) in *; vm_compute in t; subst t;
  cbn [template.exec_list]; rewrite !exec_RangeNode;
  cbn [template.exec template.eval template.chain template.field
       template.assoc reflect String.eqb Ascii.eqb Bool.eqb template.print];
  rewrite !exec_each_ok
    by (apply List.Forall_forall; intros ? [? [<- _]]%in_map_iff; reflexivity);
  rewrite !flat_map_map;
  cbn [template.exec_list template.exec template.eval template.chain
       template.field template.assoc reflect String.eqb Ascii.eqb Bool.eqb
       template.print fst snd app].

(** Looks for the window [a], [mid], [b] along the writes in the goal. *)
Ltac find_window a mid b :=
  first
    [ apply (window_Contains a mid b);
      cbn [window window_mid template.chunk_text];
      repeat split; vm_compute; reflexivity
    | apply Contains_skip; find_window a mid b
    | apply Contains_text_app_r; find_window a mid b ].

(** ** The router *)

Section RouterFacts.

Import Strings.

Variable ext : nhpprof.handlers.

(** [h] runs the case its name selects. *)
Lemma h_run prefix info w r rt :
  h ext prefix info w r rt = run ext info (selected (name_of prefix r)) w r rt.
Proof.
  unfold h, run, selected, name_of.
  repeat match goal with |- context [if ?b then _ else _] => destruct b end;
    reflexivity.
Qed.

Lemma name_of_matched prefix r n :
  http.Path (http.URL r) = (prefix +:+ "debug/pprof/") +:+ n ->
  name_of prefix r = n.
Proof. unfold name_of; intros ->; apply TrimPrefix_app. Qed.

Lemma selected_default name :
  name <> EmptyString -> name <> "cmdline" -> name <> "profile" ->
  name <> "symbol" -> selected name = BNamed name.
Proof.
  intros H1 H2 H3 H4; unfold selected.
  now rewrite !(proj2 (String.eqb_neq _ _)).
Qed.

(** C1. For every request, [h] strips [prefix+"debug/pprof/"] from the
    front of the path to get [name] (a path made of that literal and
    [n] gives [n]) and dispatches on it: the empty name renders the
    index, [cmdline], [profile] and [symbol] go to the handlers of
    net/http/pprof of these names, and every other name goes to the
    named-profile handler for that name. *)
Theorem h_dispatch_table prefix info w r rt :
  let name := name_of prefix r in
  (forall n, http.Path (http.URL r) = (prefix +:+ "debug/pprof/") +:+ n ->
             name = n) /\
  (name = EmptyString ->
     h ext prefix info w r rt =
     (http.write_all w (fst (template.Execute rt indexTmpl (reflect info))), rt)) /\
  (name = "cmdline" -> h ext prefix info w r rt = nhpprof.Cmdline ext w r rt) /\
  (name = "profile" -> h ext prefix info w r rt = nhpprof.Profile ext w r rt) /\
  (name = "symbol" -> h ext prefix info w r rt = nhpprof.Symbol ext w r rt) /\
  (name <> EmptyString -> name <> "cmdline" -> name <> "profile" ->
   name <> "symbol" ->
     h ext prefix info w r rt = nhpprof.Handler ext name w r rt).
Proof.
  cbv zeta; split; [apply name_of_matched|].
  rewrite h_run.
  repeat split.
  - now intros ->.
  - now intros ->.
  - now intros ->.
  - now intros ->.
  - intros H1 H2 H3 H4; now rewrite selected_default.
Qed.

(** C3. When the path does not begin with [prefix+"debug/pprof/"], the
    name is the path as it came, the handler still answers (the case
    the path selects runs), and a path that is none of the literals of
    the switch goes to the named-profile handler. *)
Theorem h_unmatched_path prefix info w r rt :
  HasPrefix (http.Path (http.URL r)) (prefix +:+ "debug/pprof/") = false ->
  let path := http.Path (http.URL r) in
  name_of prefix r = path /\
  h ext prefix info w r rt = run ext info (selected path) w r rt /\
  (path <> EmptyString -> path <> "cmdline" -> path <> "profile" ->
   path <> "symbol" ->
     selected path = BNamed path /\
     h ext prefix info w r rt = nhpprof.Handler ext path w r rt).
Proof.
  intros Hno; cbv zeta.
  assert (Hname : name_of prefix r = http.Path (http.URL r))
    by now apply TrimPrefix_other.
  repeat split.
  - exact Hname.
  - now rewrite h_run, Hname.
  - now apply selected_default.
  - rewrite h_run, Hname, selected_default; trivial.
Qed.

(** C10. The method plays no part in the dispatch: two requests with
    the same path get the same name and run the same case, whatever
    their methods; the method reaches the delegate only as part of the
    request handed over. *)
Theorem h_ignores_method prefix info r1 r2 :
  http.Path (http.URL r1) = http.Path (http.URL r2) ->
  name_of prefix r1 = name_of prefix r2 /\
  selected (name_of prefix r1) = selected (name_of prefix r2) /\
  (forall w rt,
     h ext prefix info w r1 rt =
       run ext info (selected (name_of prefix r1)) w r1 rt /\
     h ext prefix info w r2 rt =
       run ext info (selected (name_of prefix r1)) w r2 rt) /\
  (name_of prefix r1 = EmptyString ->
     forall w rt, h ext prefix info w r1 rt = h ext prefix info w r2 rt).
Proof.
  intros Hpath.
  assert (Hname : name_of prefix r1 = name_of prefix r2)
    by (unfold name_of; now rewrite Hpath).
  repeat split.
  - exact Hname.
  - now rewrite Hname.
  - apply h_run.
  - rewrite Hname; apply h_run.
  - intros Hidx w rt.
    rewrite !h_run, <- Hname, Hidx; reflexivity.
Qed.

End RouterFacts.

(** ** Registration *)

Section RegisterFacts.

Import Strings.

Variable rules : http.Rules.
Variable ext : nhpprof.handlers.

(** [HandleFunc] panics exactly when the mux refuses the pattern. *)
Lemma HandleFunc_None pattern handler (mux : http.ServeMux) :
  http.HandleFunc rules pattern handler mux = None <->
  http.refuses rules (dom mux) pattern = true.
Proof.
  unfold http.HandleFunc.
  destruct (http.refuses rules (dom mux) pattern); split; trivial; discriminate.
Qed.

(** Every mux refuses the empty pattern. *)
Lemma HandleFunc_empty handler (mux : http.ServeMux) :
  http.HandleFunc rules EmptyString handler mux = None.
Proof. apply HandleFunc_None, http.refuses_empty. Qed.

(** Every mux refuses a pattern it has a route for. *)
Lemma HandleFunc_registered pattern handler (mux : http.ServeMux) :
  is_Some (mux !! pattern) ->
  http.HandleFunc rules pattern handler mux = None.
Proof.
  intros Hreg; apply HandleFunc_None, http.refuses_registered.
  now apply elem_of_dom.
Qed.

(** A pattern that was accepted was not empty and had no route, and
    the table is the old one with the handler at the pattern. *)
Lemma HandleFunc_Some pattern handler (mux mux' : http.ServeMux) :
  http.HandleFunc rules pattern handler mux = Some mux' ->
  pattern <> EmptyString /\ mux !! pattern = None /\
  mux' = <[pattern := handler]> mux.
Proof.
  intros H.
  split; [|split].
  - intros ->; now rewrite HandleFunc_empty in H.
  - destruct (mux !! pattern) as [old|] eqn:Hold; [|reflexivity].
    rewrite HandleFunc_registered in H by (rewrite Hold; now eexists).
    discriminate.
  - unfold http.HandleFunc in H.
    destruct (http.refuses rules (dom mux) pattern); [discriminate|].
    now injection H as <-.
Qed.


End RegisterFacts.

(** ** The index page *)

Section IndexFacts.

Import Strings template.

Lemma dynamic_of_app (a b : list chunk) :
  dynamic_of (a ++ b) = dynamic_of a ++ dynamic_of b.
Proof. apply flat_map_app. Qed.

Lemma dynamic_of_flat_map {A} (f : A -> list chunk) (l : list A) :
  dynamic_of (flat_map f l) = flat_map (fun x => dynamic_of (f x)) l.
Proof.
  induction l as [|x l IH]; [reflexivity|].
  cbn [flat_map]; now rewrite dynamic_of_app, IH.
Qed.

(** The index template never fails, whatever the data [Register] may
    have built and whatever the state of the runtime. *)
Lemma Execute_index_no_error rt data :
  snd (Execute rt indexTmpl (reflect data)) = None.
Proof. exec_index; reflexivity. Qed.

(** The dynamic values of the page, in the order written: each is the
    value itself, as [fmt] prints it. *)
Lemma Execute_index_dynamic rt data :
  dynamic_of (fst (Execute rt indexTmpl (reflect data))) =
  [Prefix data; Prefix data]
  ++ flat_map (fun p => [itoa (pprof.Count rt p); Prefix data;
                         pprof.Name p; pprof.Name p]) (Profiles data)
  ++ [Prefix data]
  ++ flat_map (fun s => [Prefix data; s; s]) (Info data)
  ++ [Prefix data].
Proof.
  exec_index.
  repeat first
    [ rewrite dynamic_of_app
    | rewrite dynamic_of_flat_map
    | progress cbn [dynamic_of flat_map app] ].
  reflexivity.
Qed.

(** What the page shows, for any data. *)
Lemma Execute_index_contents rt data :
  let page := text_of (fst (Execute rt indexTmpl (reflect data))) in
  Contains page ("<title>" +:+ Prefix data +:+ "debug/pprof/</title>") /\
  Forall (fun p => Contains page
            (profile_row (Prefix data) (pprof.Name p) (itoa (pprof.Count rt p))))
         (Profiles data) /\
  Contains page (anchor (Prefix data +:+ "debug/pprof/profile") "CPU") /\
  Forall (fun s => Contains page (info_row (Prefix data) s)) (Info data) /\
  Contains page (anchor (Prefix data +:+ "debug/pprof/goroutine?debug=2")
                   "full goroutine stack dump") /\
  Contains page (Prefix data).
Proof.
  cbv zeta; exec_index.
  unfold profile_row, info_row, anchor.
  repeat split; rewrite ?append_assoc.
  - find_window "<title>" [Prefix data] "debug/pprof/</title>".
  - apply List.Forall_forall; intros p Hp.
    repeat apply Contains_skip.
    apply Contains_text_app_l, (Contains_flat_map _ _ p _ Hp).
    rewrite !append_assoc.
    find_window "<tr><td align=right>"
      [itoa (pprof.Count rt p); "<td><a href=" +:+ dq; Prefix data;
       "debug/pprof/"; pprof.Name p; "?debug=1" +:+ dq +:+ ">"; pprof.Name p]
      "</a>".
  - find_window ("<a href=" +:+ dq) [Prefix data]
      ("debug/pprof/profile" +:+ dq +:+ ">CPU</a>").
  - apply List.Forall_forall; intros s Hs.
    repeat apply Contains_skip; apply Contains_text_app_r.
    repeat apply Contains_skip.
    apply Contains_text_app_l, (Contains_flat_map _ _ s _ Hs).
    rewrite !append_assoc.
    find_window ("<tr><td align=right><td><a href=" +:+ dq)
      [Prefix data; "debug/pprof/"; s; dq +:+ ">"; s] "</a>".
  - find_window ("<a href=" +:+ dq) [Prefix data]
      ("debug/pprof/goroutine?debug=2" +:+ dq
       +:+ ">full goroutine stack dump</a>").
  - apply Contains_trans with ("<title>" +:+ Prefix data +:+ "debug/pprof/</title>").
    + find_window "<title>" [Prefix data] "debug/pprof/</title>".
    + apply Contains_app_r, Contains_app_l, Contains_refl.
Qed.

End IndexFacts.

(** ** Responses *)

Section ResponseFacts.

Import Strings template.

Variable ext : nhpprof.handlers.

Lemma body_write_all w cs : http.body (http.write_all w cs) = http.body w ++ cs.
Proof.
  revert w; induction cs as [|c cs IH]; intros w; cbn [http.write_all fold_left].
  - now rewrite app_nil_r.
  - fold (http.write_all (http.write w c) cs).
    rewrite IH; cbn [http.write http.body]; now rewrite <- app_assoc.
Qed.

Lemma status_write_all_set w cs z :
  http.status w = Some z -> http.status (http.write_all w cs) = Some z.
Proof.
  revert w; induction cs as [|c cs IH]; intros w Hw; [exact Hw|].
  cbn [http.write_all fold_left]; fold (http.write_all (http.write w c) cs).
  apply IH; cbn [http.write http.status]; now rewrite Hw.
Qed.

Lemma status_write_all w cs :
  cs <> [] ->
  http.status (http.write_all w cs) = Some (default http.StatusOK (http.status w)).
Proof.
  destruct cs as [|c cs]; [easy|]; intros _.
  cbn [http.write_all fold_left]; fold (http.write_all (http.write w c) cs).
  now apply status_write_all_set.
Qed.

Lemma Execute_index_nonempty rt data :
  fst (Execute rt indexTmpl (reflect data)) <> [].
Proof. exec_index; discriminate. Qed.

Lemma name_of_index_request m prefix q :
  name_of prefix (index_request m prefix q) = EmptyString.
Proof.
  apply name_of_matched; cbn [index_request http.URL http.Path].
  now rewrite append_nil_r.
Qed.

(** The index case of [h]: the writes of the template go to the
    response, and the runtime is left as it was. *)
Lemma h_index prefix info w r rt :
  name_of prefix r = EmptyString ->
  h ext prefix info w r rt =
  (http.write_all w (fst (Execute rt indexTmpl (reflect info))), rt).
Proof. intros H; now rewrite h_run, H. Qed.

Lemma index_response_eq prefix rt0 rt m q :
  index_response ext prefix rt0 rt m q =
  http.write_all http.fresh
    (fst (Execute rt indexTmpl (reflect (tmpInfo prefix rt0)))).
Proof.
  unfold index_response.
  now rewrite h_index by apply name_of_index_request.
Qed.

Lemma index_response_body prefix rt0 rt m q :
  http.body (index_response ext prefix rt0 rt m q) =
  fst (Execute rt indexTmpl (reflect (tmpInfo prefix rt0))).
Proof. now rewrite index_response_eq, body_write_all. Qed.

Lemma html_safe_uint d : html_safe (NilEmpty.string_of_uint d) = true.
Proof. induction d; cbn; auto. Qed.

(** A decimal number has nothing to escape. *)
Lemma html_safe_itoa z : html_safe (itoa z) = true.
Proof.
  unfold itoa, NilZero.string_of_int, NilZero.string_of_uint.
  destruct (Z.to_int z) as [d|d]; destruct d;
    cbn [html_safe]; rewrite ?html_safe_uint; reflexivity.
Qed.

End ResponseFacts.

(** ** The index page, as served *)

Section IndexServed.

Import Strings template.

Variable ext : nhpprof.handlers.

(** C2, as amended.  The index is rendered with text/template, which
    escapes nothing: whatever the prefix and the profile names, the
    dynamic values of the page are the prefix, the profile names, the
    decimal counts and the two fixed names, each written as it is.  So
    the dynamic parts of the page are in HTML-safe form exactly when the
    prefix and the profile names are. *)
Theorem index_values_verbatim prefix rt0 rt m q :
  let page := http.body (index_response ext prefix rt0 rt m q) in
  dynamic_of page =
    [prefix; prefix]
    ++ flat_map (fun p => [itoa (pprof.Count rt p); prefix;
                           pprof.Name p; pprof.Name p]) (pprof.Profiles rt0)
    ++ [prefix]
    ++ [prefix; "cmdline"; "cmdline"; prefix; "symbol"; "symbol"]
    ++ [prefix] /\
  (Forall (fun s => html_safe s = true) (dynamic_of page) <->
   html_safe prefix = true /\
   Forall (fun p => html_safe (pprof.Name p) = true) (pprof.Profiles rt0)).
Proof.
  cbv zeta.
  rewrite index_response_body, Execute_index_dynamic.
  cbn [tmpInfo Prefix Profiles Info flat_map app].
  split; [reflexivity|].
  split.
  - intros Hall; rewrite List.Forall_forall in Hall.
    split; [apply Hall; now left|].
    apply List.Forall_forall; intros p Hp.
    apply Hall; do 2 right.
    apply in_or_app; left.
    apply in_flat_map; exists p; split; [exact Hp|].
    do 2 right; now left.
  - intros [Hprefix Hnames].
    do 2 (constructor; [assumption|]).
    apply List.Forall_app; split.
    + apply List.Forall_flat_map.
      eapply List.Forall_impl; [|exact Hnames].
      intros p Hp; cbn beta.
      repeat (constructor; [assumption || apply html_safe_itoa|]).
      constructor.
    + repeat (constructor; [assumption || reflexivity|]).
      constructor.
Qed.

(** C4. The page served for the index under [p] answers with status
    200 and shows the title [p+"debug/pprof/"], for each profile
    captured at registration a row with its current sample count and
    the link to [p+"debug/pprof/"+name+"?debug=1"], the link to
    [p+"debug/pprof/profile"], the links to [p+"debug/pprof/cmdline"]
    and [p+"debug/pprof/symbol"], and the link to
    [p+"debug/pprof/goroutine?debug=2"]; in particular it contains the
    prefix itself. *)
Theorem index_page_contents p rt0 rt m q :
  let resp := index_response ext p rt0 rt m q in
  let page := text_of (http.body resp) in
  http.status resp = Some http.StatusOK /\
  Contains page ("<title>" +:+ p +:+ "debug/pprof/</title>") /\
  Forall (fun prof => Contains page
            (profile_row p (pprof.Name prof) (itoa (pprof.Count rt prof))))
         (pprof.Profiles rt0) /\
  Contains page (anchor (p +:+ "debug/pprof/profile") "CPU") /\
  Contains page (info_row p "cmdline") /\
  Contains page (info_row p "symbol") /\
  Contains page (anchor (p +:+ "debug/pprof/goroutine?debug=2")
                   "full goroutine stack dump") /\
  Contains page p.
Proof.
  cbv zeta; rewrite index_response_body.
  split.
  { rewrite index_response_eq.
    now rewrite status_write_all by apply Execute_index_nonempty. }
  destruct (Execute_index_contents rt (tmpInfo p rt0))
    as (Htitle & Hrows & Hcpu & Hinfo & Hgo & Hp).
  cbn [tmpInfo Prefix Profiles Info] in *.
  apply List.Forall_cons_iff in Hinfo as [Hcmd Hinfo].
  apply List.Forall_cons_iff in Hinfo as [Hsym _].
  repeat split; assumption.
Qed.

(** C5. The count in the row of a profile is read when the page is
    rendered: it is the count in the runtime as it is then ([rt]), not
    as it was at registration ([rt0]); the profiles that get a row are
    those enumerated at registration.  The dynamic values of the page
    are these and nothing else, so the runtime shows in the page only
    through the current counts of the captured profiles. *)
Theorem index_counts_live prefix rt0 rt m q :
  let page := http.body (index_response ext prefix rt0 rt m q) in
  Forall (fun prof => Contains (text_of page)
            (profile_row prefix (pprof.Name prof) (itoa (pprof.Count rt prof))))
         (pprof.Profiles rt0) /\
  dynamic_of page =
    [prefix; prefix]
    ++ flat_map (fun prof => [itoa (pprof.Count rt prof); prefix;
                              pprof.Name prof; pprof.Name prof])
         (pprof.Profiles rt0)
    ++ [prefix; prefix; "cmdline"; "cmdline"; prefix; "symbol"; "symbol"; prefix] /\
  (forall rt',
     Forall (fun prof => pprof.Count rt' prof = pprof.Count rt prof)
            (pprof.Profiles rt0) ->
     index_response ext prefix rt0 rt' m q = index_response ext prefix rt0 rt m q).
Proof.
  cbv zeta; rewrite index_response_body.
  split; [|split].
  - destruct (Execute_index_contents rt (tmpInfo prefix rt0)) as (_ & Hrows & _).
    exact Hrows.
  - now rewrite Execute_index_dynamic.
  - intros rt' Hagree.
    rewrite !index_response_eq; f_equal.
    exec_index; cbn [tmpInfo Prefix Profiles Info].
    do 6 f_equal.
    apply flat_map_agree.
    eapply List.Forall_impl; [|exact Hagree].
    intros prof Hprof; cbn beta; now rewrite Hprof.
Qed.

(** C7. Rendering the index is idempotent: a request for the index
    leaves the runtime as it found it, and a second render right after
    the first, from the same registration, writes the same page, counts
    included. *)
Theorem index_render_idempotent prefix info w r rt :
  name_of prefix r = EmptyString ->
  let first := h ext prefix info w r rt in
  let second := h ext prefix info w r (snd first) in
  snd first = rt /\ snd second = rt /\ fst second = fst first.
Proof.
  intros Hindex; cbv zeta.
  rewrite !(h_index ext prefix info) by exact Hindex.
  cbn [fst snd]; repeat split.
Qed.

(** C8. The index template is static text, parsed when the package is
    initialised: [Must] panics exactly on a parse error, which aborts
    startup; the text of this package parses, to the template the
    handlers use; and executing that template returns no error,
    whatever the data and the state of the runtime, so that no request
    can meet a template failure. *)
Theorem template_failure_only_at_startup :
  (forall parsed, Must parsed = None <-> exists msg, parsed = Err msg) /\
  Must (Parse indexText) = Some indexTmpl /\
  (forall rt data, snd (Execute rt indexTmpl (reflect data)) = None) /\
  (forall prefix info w r rt,
     name_of prefix r = EmptyString ->
     h ext prefix info w r rt =
     (http.write_all w (fst (Execute rt indexTmpl (reflect info))), rt)).
Proof.
  split; [|split; [|split]].
  - intros [t|msg]; split.
    + discriminate.
    + now intros [msg' [=]].
    + now exists msg.
    + reflexivity.
  - vm_compute; reflexivity.
  - apply Execute_index_no_error.
  - apply h_index.
Qed.

End IndexServed.

(** ** Serving requests *)

Section ServeFacts.

Import Strings template.

Variable rules : http.Rules.
Variable ext : nhpprof.handlers.

(** No case of [h] assigns to a captured variable: a call hands them
    back as it took them, and answers as [h] does for their values. *)
Lemma h_closure_spec env w r rt :
  h_closure ext env w r rt =
  (env, h ext (captured_prefix env) (captured_tmpInfo env) w r rt).
Proof.
  unfold h_closure, h.
  repeat match goal with |- context [if ?b then _ else _] => destruct b end;
    reflexivity.
Qed.

Lemma step_h_closure s r :
  step (h_closure ext) s r =
  ({| captured := captured s;
      runtime := snd (h ext (captured_prefix (captured s))
                        (captured_tmpInfo (captured s)) http.fresh r (runtime s)) |},
   fst (h ext (captured_prefix (captured s)) (captured_tmpInfo (captured s))
          http.fresh r (runtime s))).
Proof.
  unfold step; rewrite h_closure_spec.
  now destruct (h ext _ _ http.fresh r (runtime s)).
Qed.

Lemma serve_invariant s reqs :
  captured (snd (serve (h_closure ext) s reqs)) = captured s /\
  Forall2 (served_with ext (captured s)) reqs (fst (serve (h_closure ext) s reqs)).
Proof.
  revert s; induction reqs as [|r reqs IH]; intros s; cbn [serve].
  - split; constructor.
  - rewrite step_h_closure.
    set (s1 := {| captured := captured s; runtime := _ |}).
    destruct (IH s1) as (Hc & Hall).
    destruct (serve (h_closure ext) s1 reqs) as [trace s2]; cbn [fst snd] in *.
    split; [exact Hc|].
    constructor; [|exact Hall].
    unfold served_with; cbn [fst snd]; now split.
Qed.

(** Requests that leave the runtime as they found it are each answered
    as if they had come alone. *)
Lemma serve_quiet s reqs :
  Forall (fun r => forall rt,
            snd (h ext (captured_prefix (captured s))
                   (captured_tmpInfo (captured s)) http.fresh r rt) = rt) reqs ->
  runtime (snd (serve (h_closure ext) s reqs)) = runtime s /\
  Forall2 (fun r entry =>
             snd entry =
             fst (h ext (captured_prefix (captured s))
                    (captured_tmpInfo (captured s)) http.fresh r (runtime s)))
    reqs (fst (serve (h_closure ext) s reqs)).
Proof.
  revert s; induction reqs as [|r reqs IH]; intros s Hquiet; cbn [serve].
  - split; constructor.
  - apply List.Forall_cons_iff in Hquiet as [Hr Hquiet].
    rewrite step_h_closure, Hr.
    set (s1 := {| captured := captured s; runtime := runtime s |}).
    destruct (IH s1 Hquiet) as (Hrt & Hall).
    destruct (serve (h_closure ext) s1 reqs) as [trace s2]; cbn [fst snd] in *.
    split; [exact Hrt|].
    constructor; [reflexivity|exact Hall].
Qed.

(** C9. [Register] installs [h] closed over the prefix and the
    view-model it built.  Run as a closure whose captured variables any
    call could assign to, [h] assigns to neither: after any sequence of
    requests they are as [Register] left them, and every request of the
    sequence found them so and was answered by [h] for these values, in
    the runtime of the moment.  A request leaves nothing of its own for
    the next one: what lasts between requests is the runtime as the
    delegates left it, so two histories that end in the same runtime
    are followed by the same answer to the same request; and requests
    that leave the runtime alone, index requests among them, are each
    answered as if they had come alone. *)
Theorem registration_immutable prefix rt0 reqs rt :
  let env0 := mkCaptured prefix (tmpInfo prefix rt0) in
  let s0 := mkState env0 rt in
  let trace := fst (serve (h_closure ext) s0 reqs) in
  let s' := snd (serve (h_closure ext) s0 reqs) in
  (forall mux mux' : http.ServeMux,
     Register rules ext prefix mux rt0 = Some mux' ->
     mux' !! prefix = Some (h ext prefix (tmpInfo prefix rt0))) /\
  (forall env w r rt1,
     h_closure ext env w r rt1 =
     (env, h ext (captured_prefix env) (captured_tmpInfo env) w r rt1)) /\
  captured s' = env0 /\
  Forall2 (served_with ext env0) reqs trace /\
  (forall reqs' rt' r,
     runtime (snd (serve (h_closure ext) (mkState env0 rt') reqs')) = runtime s' ->
     snd (step (h_closure ext)
            (snd (serve (h_closure ext) (mkState env0 rt') reqs')) r) =
     snd (step (h_closure ext) s' r)) /\
  (Forall (fun r => forall rt1,
             snd (h ext prefix (tmpInfo prefix rt0) http.fresh r rt1) = rt1) reqs ->
   runtime s' = rt /\
   Forall2 (fun r entry =>
              snd entry =
              fst (h ext prefix (tmpInfo prefix rt0) http.fresh r rt))
     reqs trace) /\
  (forall r rt1,
     name_of prefix r = EmptyString ->
     snd (h ext prefix (tmpInfo prefix rt0) http.fresh r rt1) = rt1).
Proof.
  cbv zeta.
  set (env0 := mkCaptured prefix (tmpInfo prefix rt0)).
  destruct (serve_invariant (mkState env0 rt) reqs) as (Hc & Hall).
  cbn [captured] in Hc, Hall.
  split.
  { intros mux mux' (_ & _ & ->)%HandleFunc_Some; apply lookup_insert_eq. }
  split; [apply h_closure_spec|].
  split; [exact Hc|]; split; [exact Hall|].
  split; [|split].
  - intros reqs' rt' r Hrt.
    destruct (serve_invariant (mkState env0 rt') reqs') as (Hc' & _).
    cbn [captured] in Hc'.
    rewrite !step_h_closure; cbn [snd].
    now rewrite Hc, Hc', Hrt.
  - intros Hquiet.
    exact (serve_quiet (mkState env0 rt) reqs Hquiet).
  - intros r rt1 Hidx.
    now rewrite (h_index ext _ _ _ _ _ Hidx).
Qed.

End ServeFacts.

(** ** The claims on sample data *)

Section Samples.

Import Strings template.

(** C2, as stated, fails: a profile created under the name [<script>]
    reaches the page as it is, markup and all. *)
Lemma index_not_escaped :
  let page :=
    http.body (index_response Sample.ext "/p/" Sample.rt_markup
                 Sample.rt_markup "GET" EmptyString) in
  In "<script>" (dynamic_of page) /\
  html_safe "<script>" = false /\
  Exists (fun s => html_safe s = false) (dynamic_of page) /\
  Contains (text_of page) (anchor "/p/debug/pprof/<script>?debug=1" "<script>").
Proof.
  cbv zeta.
  rewrite index_response_body, Execute_index_dynamic.
  destruct (Execute_index_contents Sample.rt_markup
              (tmpInfo "/p/" Sample.rt_markup)) as (_ & Hrows & _).
  apply List.Forall_cons_iff in Hrows as [Hrow _].
  cbn [tmpInfo Prefix Profiles Info pprof.Profiles pprof.registry
       Sample.rt_markup flat_map app pprof.Name].
  split; [|split; [|split]].
  - do 4 right; now left.
  - reflexivity.
  - do 4 (apply Exists_cons_tl); now apply Exists_cons_hd.
  - eapply Contains_trans; [exact Hrow|].
    unfold profile_row; rewrite <- !append_assoc.
    apply Contains_app_r, Contains_refl.
Qed.

Lemma index_values_verbatim_witness :
  html_safe "/p/" = true /\
  Forall (fun s => html_safe s = true)
    (dynamic_of (http.body (index_response Sample.ext "/p/" Sample.rt0
                              Sample.rt1 "GET" EmptyString))).
Proof.
  split; [reflexivity|].
  apply (index_values_verbatim Sample.ext "/p/" Sample.rt0 Sample.rt1
           "GET" EmptyString).
  split; [reflexivity|repeat constructor].
Defined.

Lemma h_unmatched_path_witness :
  HasPrefix "/other/heap" ("/p/" +:+ "debug/pprof/") = false /\
  h Sample.ext "/p/" (tmpInfo "/p/" Sample.rt0) http.fresh
    (Sample.get "/other/heap") Sample.rt0 =
  nhpprof.Handler Sample.ext "/other/heap" http.fresh
    (Sample.get "/other/heap") Sample.rt0.
Proof.
  split; [reflexivity|].
  apply (h_unmatched_path Sample.ext "/p/" (tmpInfo "/p/" Sample.rt0)
           http.fresh (Sample.get "/other/heap") Sample.rt0);
    [reflexivity|discriminate..].
Defined.

Lemma h_ignores_method_witness :
  http.Method (Sample.get "/p/debug/pprof/symbol")
    <> http.Method (Sample.post "/p/debug/pprof/symbol") /\
  name_of "/p/" (Sample.get "/p/debug/pprof/symbol") =
  name_of "/p/" (Sample.post "/p/debug/pprof/symbol") /\
  selected (name_of "/p/" (Sample.get "/p/debug/pprof/symbol")) =
  selected (name_of "/p/" (Sample.post "/p/debug/pprof/symbol")).
Proof.
  split; [discriminate|].
  destruct (h_ignores_method Sample.ext "/p/" (tmpInfo "/p/" Sample.rt0)
              (Sample.get "/p/debug/pprof/symbol")
              (Sample.post "/p/debug/pprof/symbol") eq_refl)
    as (Hname & Hcase & _).
  split; [exact Hname|exact Hcase].
Defined.


(** On a mux that refuses nothing but the empty and the registered
    pattern, the prefix [/p/] is accepted and makes the one route. *)
Example Register_sample :
  exists mux' : http.ServeMux,
    Register http.exact Sample.ext "/p/" Sample.no_routes Sample.rt0 = Some mux' /\
    mux' !! "/p/" = Some (h Sample.ext "/p/" (tmpInfo "/p/" Sample.rt0)) /\
    size mux' = 1.
Proof.
  exists (<["/p/" := h Sample.ext "/p/" (tmpInfo "/p/" Sample.rt0)]> Sample.no_routes).
  split; [reflexivity|].
  split; [apply lookup_insert_eq|].
  now rewrite map_size_insert_None.
Qed.

Lemma index_render_idempotent_witness :
  name_of "/p/" (Sample.get "/p/debug/pprof/") = EmptyString /\
  fst (h Sample.ext "/p/" (tmpInfo "/p/" Sample.rt0) http.fresh
         (Sample.get "/p/debug/pprof/")
         (snd (h Sample.ext "/p/" (tmpInfo "/p/" Sample.rt0) http.fresh
                 (Sample.get "/p/debug/pprof/") Sample.rt1))) =
  fst (h Sample.ext "/p/" (tmpInfo "/p/" Sample.rt0) http.fresh
         (Sample.get "/p/debug/pprof/") Sample.rt1).
Proof.
  split; [reflexivity|].
  apply (index_render_idempotent Sample.ext "/p/" (tmpInfo "/p/" Sample.rt0)
           http.fresh (Sample.get "/p/debug/pprof/") Sample.rt1 eq_refl).
Defined.

(** What C9 says of [h] is not true of every closure: one that assigns
    to its prefix is found out by the second request. *)
Example rebinding_sample :
  let s0 := mkState (mkCaptured "/p/" (tmpInfo "/p/" Sample.rt0)) Sample.rt0 in
  let index := Sample.get "/p/debug/pprof/" in
  captured_prefix (captured (snd (serve Sample.rebinding s0 [index]))) = EmptyString /\
  map (fun entry => dynamic_of (http.body (snd entry)))
      (skipn 1 (fst (serve Sample.rebinding s0 [index; index]))) =
  [["Handler /p/debug/pprof/"]] /\
  captured_prefix
    (captured (snd (serve (h_closure Sample.ext) s0 [index; index]))) = "/p/".
Proof. repeat split; vm_compute; reflexivity. Qed.

(** The sample runtime counts 4 goroutine samples at registration and
    41 when the page is rendered: the page shows 41. *)
Example index_counts_sample :
  pprof.Count Sample.rt0 Sample.goroutine = 4%Z /\
  dynamic_of (http.body (index_response Sample.ext "/p/" Sample.rt0
                           Sample.rt1 "GET" EmptyString)) =
  ["/p/"; "/p/"; "41"; "/p/"; "goroutine"; "goroutine";
   "40"; "/p/"; "heap"; "heap";
   "/p/"; "/p/"; "cmdline"; "cmdline"; "/p/"; "symbol"; "symbol"; "/p/"].
Proof. split; vm_compute; reflexivity. Qed.

(** Each name of the table reaches its delegate. *)
Example dispatch_sample :
  map (fun path =>
         dynamic_of (http.body (fst (h Sample.ext "/p/" (tmpInfo "/p/" Sample.rt0)
                                       http.fresh (Sample.get path) Sample.rt0))))
      ["/p/debug/pprof/cmdline"; "/p/debug/pprof/profile";
       "/p/debug/pprof/symbol"; "/p/debug/pprof/heap"; "/elsewhere"] =
  [["Cmdline"]; ["Profile"]; ["Symbol"]; ["Handler heap"];
   ["Handler /elsewhere"]].
Proof. vm_compute; reflexivity. Qed.

(** Registering the same prefix again, or the empty prefix, panics. *)
Example Register_twice_sample :
  (mux1 ← Register http.exact Sample.ext "/p/" Sample.no_routes Sample.rt0;
   Register http.exact Sample.ext "/p/" mux1 Sample.rt1) = None /\
  Register http.exact Sample.ext EmptyString Sample.no_routes Sample.rt0 = None.
Proof. split; reflexivity. Qed.

End Samples.

(** * Further properties of the router *)

(** ** Which paths give which name *)

Section NameFacts.

Import Strings.

Lemma length_append (a b : string) :
  String.length (a +:+ b) = (String.length a + String.length b)%nat.
Proof.
  induction a as [|x a IH]; [reflexivity|].
  rewrite append_cons; cbn [String.length]; now rewrite IH.
Qed.

Lemma append_inj_l (a b c : string) : a +:+ b = a +:+ c -> b = c.
Proof.
  induction a as [|x a IH]; [trivial|].
  rewrite !append_cons; intros [= H]; now apply IH.
Qed.

Lemma append_inj_same_length (a b c d : string) :
  String.length a = String.length b -> a +:+ c = b +:+ d -> a = b /\ c = d.
Proof.
  revert b; induction a as [|x a IH]; intros [|y b] Hlen H;
    try discriminate; [now split|].
  rewrite !append_cons in H; injection H as -> H.
  injection Hlen as Hlen.
  destruct (IH b Hlen H) as [-> ->]; now split.
Qed.

Lemma append_inj_r (a b c : string) : a +:+ c = b +:+ c -> a = b.
Proof.
  intros H.
  assert (Hlen : String.length a = String.length b).
  { apply (f_equal String.length) in H; rewrite !length_append in H; lia. }
  now destruct (append_inj_same_length a b c c Hlen H).
Qed.

Lemma HasSuffix_app (a suf : string) : HasSuffix (a +:+ suf) suf = true.
Proof.
  unfold HasSuffix; rewrite length_append.
  apply andb_true_iff; split.
  - apply Nat.leb_le; lia.
  - replace (String.length a + String.length suf - String.length suf)%nat
      with (String.length a) by lia.
    rewrite drop_app; apply String.eqb_refl.
Qed.

(** What [TrimPrefix] returns is an end of what it was given. *)
Lemma TrimPrefix_is_suffix (s p : string) :
  exists u, s = u +:+ TrimPrefix s p.
Proof.
  unfold TrimPrefix; destruct (HasPrefix s p) eqn:Hp.
  - destruct (HasPrefix_inv _ _ Hp) as [t ->].
    exists p; now rewrite drop_app.
  - now exists EmptyString.
Qed.

(** A non-empty end of a string that ends with a slash ends with a
    slash. *)
Lemma suffix_ends_slash (u n s : string) :
  u +:+ n = s +:+ "/" -> n <> EmptyString -> exists n', n = n' +:+ "/".
Proof.
  revert s; induction u as [|c u IH]; intros s H Hn.
  - now exists s.
  - destruct s as [|d s]; rewrite !append_cons in H.
    + injection H as _ H.
      destruct u; [|discriminate].
      now destruct n.
    + injection H as _ H; now apply (IH s).
Qed.

Lemma selected_index_iff name : selected name = BIndex <-> name = EmptyString.
Proof.
  unfold selected; split.
  - destruct (String.eqb_spec name EmptyString); [trivial|].
    repeat match goal with |- context [if ?b then _ else _] => destruct b end;
      discriminate.
  - now intros ->.
Qed.

(** The paths behind a name. *)
Lemma name_of_inv prefix r n :
  name_of prefix r = n <->
  http.Path (http.URL r) = (prefix +:+ "debug/pprof/") +:+ n \/
  (HasPrefix (http.Path (http.URL r)) (prefix +:+ "debug/pprof/") = false /\
   http.Path (http.URL r) = n).
Proof.
  unfold name_of, TrimPrefix.
  destruct (HasPrefix (http.Path (http.URL r)) (prefix +:+ "debug/pprof/"))
    eqn:Hp.
  - destruct (HasPrefix_inv _ _ Hp) as [t Ht]; rewrite Ht, drop_app.
    split.
    + intros ->; now left.
    + intros [H|[H _]]; [now apply append_inj_l in H|discriminate].
  - split.
    + intros H; right; now split.
    + intros [H|[_ H]]; [|exact H].
      rewrite H, HasPrefix_app in Hp; discriminate.
Qed.


(** X1. The name [h] computes is [n] exactly for two kinds of path: the
    path made of [prefix+"debug/pprof/"] and [n], and the bare path [n]
    when [n] does not begin with [prefix+"debug/pprof/"]. *)
Theorem name_of_iff prefix r n :
  name_of prefix r = n <->
  http.Path (http.URL r) = (prefix +:+ "debug/pprof/") +:+ n \/
  (HasPrefix (http.Path (http.URL r)) (prefix +:+ "debug/pprof/") = false /\
   http.Path (http.URL r) = n).
Proof. exact (name_of_inv prefix r n). Qed.

End NameFacts.

Section DispatchFacts.

Import Strings template.

Variable ext : nhpprof.handlers.

Lemma name_of_empty_iff prefix r :
  name_of prefix r = EmptyString <->
  http.Path (http.URL r) = prefix +:+ "debug/pprof/" \/
  http.Path (http.URL r) = EmptyString.
Proof.
  rewrite name_of_inv, append_nil_r; split.
  - intros [H|[_ H]]; [now left|now right].
  - intros [H|H]; [now left|right].
    split; [|exact H].
    rewrite H; destruct prefix; reflexivity.
Qed.

(** X2. The index is what [h] selects for exactly two paths:
    [prefix+"debug/pprof/"] and the empty path; for both it renders the
    page and leaves the runtime alone. *)
Theorem index_selected_iff prefix info w r rt :
  let path := http.Path (http.URL r) in
  (selected (name_of prefix r) = BIndex <->
   path = prefix +:+ "debug/pprof/" \/ path = EmptyString) /\
  (path = prefix +:+ "debug/pprof/" \/ path = EmptyString ->
   h ext prefix info w r rt =
   (http.write_all w (fst (Execute rt indexTmpl (reflect info))), rt)).
Proof.
  cbv zeta; split.
  - now rewrite selected_index_iff, name_of_empty_iff.
  - intros H; apply h_index; now apply name_of_empty_iff.
Qed.

(** X3. No cross-talk between prefixes: handed the index path of
    another prefix [a], the handler of prefix [b] renders no index and
    calls none of [Cmdline], [Profile] and [Symbol]; it asks the
    named-profile handler for a name that is not empty, which is an end
    of the path it was given. *)
Theorem no_cross_talk a b info w m q rt :
  a <> b ->
  let r := index_request m a q in
  exists name u,
    name <> EmptyString /\
    a +:+ "debug/pprof/" = u +:+ name /\
    selected (name_of b r) = BNamed name /\
    h ext b info w r rt = nhpprof.Handler ext name w r rt.
Proof.
  intros Hab; cbv zeta.
  set (r := index_request m a q).
  assert (Hpath : http.Path (http.URL r) = a +:+ "debug/pprof/") by reflexivity.
  destruct (TrimPrefix_is_suffix (a +:+ "debug/pprof/") (b +:+ "debug/pprof/"))
    as [u Hu].
  change (a +:+ "debug/pprof/" = u +:+ name_of b r) in Hu.
  assert (Hne : name_of b r <> EmptyString).
  { intros [H|H]%name_of_empty_iff; rewrite Hpath in H.
    - now apply append_inj_r in H.
    - apply (f_equal String.length) in H; rewrite length_append in H.
      cbn in H; lia. }
  assert (Hslash : exists n', name_of b r = n' +:+ "/").
  { apply (suffix_ends_slash u _ (a +:+ "debug/pprof")); [|exact Hne].
    now rewrite <- Hu, append_assoc. }
  destruct Hslash as [n' Hn'].
  assert (Hlit : forall lit, HasSuffix lit "/" = false -> name_of b r <> lit).
  { intros lit Hlit H; rewrite Hn' in H; subst lit.
    rewrite HasSuffix_app in Hlit; discriminate. }
  assert (Hsel : selected (name_of b r) = BNamed (name_of b r))
    by (apply selected_default; [exact Hne|now apply Hlit..]).
  exists (name_of b r), u; repeat split; try assumption.
  now rewrite h_run, Hsel.
Qed.

End DispatchFacts.

(** ** Registering more than once *)

Section RegisterMore.

Import Strings.

Variable rules : http.Rules.
Variable ext : nhpprof.handlers.

(** X5. A prefix can be registered once: after [Register] has
    succeeded, registering the same prefix on the resulting mux panics,
    whatever the runtime has become. *)
Theorem Register_twice prefix (mux mux' : http.ServeMux) rt rt' :
  Register rules ext prefix mux rt = Some mux' ->
  Register rules ext prefix mux' rt' = None.
Proof.
  intros (_ & _ & ->)%HandleFunc_Some.
  apply HandleFunc_registered.
  rewrite lookup_insert_eq; now eexists.
Qed.

(** X6. When two prefixes have been registered one after the other,
    they are different, both handlers are installed, each at its own
    prefix with its own view-model, and every other route is as it was;
    and the route table is the one the other order gives, when the mux
    accepts that order too. *)
Theorem Register_both p1 p2 (mux m : http.ServeMux) rt1 rt2 :
  (Register rules ext p1 mux rt1 ≫= fun m1 => Register rules ext p2 m1 rt2)
    = Some m ->
  p1 <> p2 /\
  m !! p1 = Some (h ext p1 (tmpInfo p1 rt1)) /\
  m !! p2 = Some (h ext p2 (tmpInfo p2 rt2)) /\
  (forall k, k <> p1 -> k <> p2 -> m !! k = mux !! k) /\
  (forall m' : http.ServeMux,
     (Register rules ext p2 mux rt2 ≫= fun m2 => Register rules ext p1 m2 rt1)
       = Some m' ->
     m' = m).
Proof.
  intros Hseq.
  destruct (Register rules ext p1 mux rt1) as [m1|] eqn:R1;
    cbn [mbind option_bind] in Hseq; [|discriminate].
  apply HandleFunc_Some in R1 as (_ & _ & ->).
  assert (Hne : p1 <> p2).
  { intros <-; unfold Register in Hseq.
    rewrite HandleFunc_registered in Hseq; [discriminate|].
    rewrite lookup_insert_eq; now eexists. }
  apply HandleFunc_Some in Hseq as (_ & _ & ->).
  split; [exact Hne|].
  split; [rewrite lookup_insert_ne by congruence; apply lookup_insert_eq|].
  split; [apply lookup_insert_eq|].
  split; [intros k K1 K2; now rewrite !lookup_insert_ne by congruence|].
  intros m' Hother.
  destruct (Register rules ext p2 mux rt2) as [m2|] eqn:R2;
    cbn [mbind option_bind] in Hother; [|discriminate].
  apply HandleFunc_Some in R2 as (_ & _ & ->).
  apply HandleFunc_Some in Hother as (_ & _ & ->).
  now apply insert_insert_ne.
Qed.

End RegisterMore.

(** ** The index response as a whole *)

Section IndexWhole.

Import Strings template.

Variable ext : nhpprof.handlers.

Lemma HasPrefix_app_l (s t x : string) :
  HasPrefix s x = true -> HasPrefix (s +:+ t) x = true.
Proof.
  intros [u ->]%HasPrefix_inv.
  rewrite append_assoc; apply HasPrefix_app.
Qed.

Lemma HasSuffix_app_r (s t x : string) :
  HasSuffix t x = true -> HasSuffix (s +:+ t) x = true.
Proof.
  intros [a ->]%HasSuffix_inv.
  rewrite <- append_assoc; apply HasSuffix_app.
Qed.

Lemma HasSuffix_text_app_r (cs cs' : list chunk) x :
  HasSuffix (text_of cs') x = true -> HasSuffix (text_of (cs ++ cs')) x = true.
Proof. rewrite text_of_app; apply HasSuffix_app_r. Qed.

Lemma HasSuffix_text_cons (c : chunk) (cs : list chunk) x :
  HasSuffix (text_of cs) x = true -> HasSuffix (text_of (c :: cs)) x = true.
Proof. apply HasSuffix_app_r. Qed.

(** X7. The index case of [h] only adds to the response: what was
    written before stays in front of the page, a status that was set
    before is kept (200 is sent otherwise), and the runtime is left as
    it was. *)
Theorem index_appends prefix info w r rt :
  name_of prefix r = EmptyString ->
  let res := h ext prefix info w r rt in
  http.body (fst res) =
    http.body w ++ fst (Execute rt indexTmpl (reflect info)) /\
  http.status (fst res) = Some (default http.StatusOK (http.status w)) /\
  snd res = rt.
Proof.
  intros Hindex; cbv zeta.
  rewrite (h_index ext prefix info w r rt Hindex); cbn [fst snd].
  split; [apply body_write_all|].
  split; [|reflexivity].
  apply status_write_all, Execute_index_nonempty.
Qed.

(** X8. Whatever the prefix, the profiles and their counts, the body of
    the index response is one document, from [<html>] to [</html>]. *)
Theorem index_page_whole prefix rt0 rt m q :
  let page := text_of (http.body (index_response ext prefix rt0 rt m q)) in
  HasPrefix page "<html>" = true /\ HasSuffix page "</html>" = true.
Proof.
  cbv zeta; rewrite index_response_body; exec_index.
  split.
  - cbn [text_of chunk_text]; now apply HasPrefix_app_l.
  - repeat first
      [ apply HasSuffix_text_app_r
      | match goal with
        | |- HasSuffix (text_of (_ :: _ :: _)) _ = true =>
            apply HasSuffix_text_cons
        | |- HasSuffix (text_of (_ :: _ ++ _)) _ = true =>
            apply HasSuffix_text_cons
        end ].
    cbn [text_of chunk_text]; rewrite append_nil_r.
    vm_compute; reflexivity.
Qed.

End IndexWhole.

(** ** Following the links of the page *)

Section LinkFacts.

Import Strings template.

Variable ext : nhpprof.handlers.

Lemma name_of_follow prefix n query :
  name_of prefix (follow (prefix +:+ "debug/pprof/" +:+ n) query) = n.
Proof.
  apply name_of_matched; cbn [follow http.URL http.Path].
  now rewrite append_assoc.
Qed.

Lemma Contains_row_anchor page prefix name count :
  Contains page (profile_row prefix name count) ->
  Contains page (anchor (prefix +:+ "debug/pprof/" +:+ name +:+ "?debug=1") name).
Proof.
  intros H; eapply Contains_trans; [exact H|].
  unfold profile_row; rewrite <- !append_assoc.
  apply Contains_app_r, Contains_refl.
Qed.

Lemma Contains_info_anchor page prefix name :
  Contains page (info_row prefix name) ->
  Contains page (anchor (prefix +:+ "debug/pprof/" +:+ name) name).
Proof.
  intros H; eapply Contains_trans; [exact H|].
  unfold info_row; apply Contains_app_r, Contains_refl.
Qed.

(** X9. The link the page gives for a profile leads back into the
    same handler: followed, it runs the case its name selects.  For a
    name that is none of the literals of the switch that is the
    named-profile handler for this very profile; a profile the
    application has named [cmdline], [profile] or [symbol] is shadowed
    by the handler of that name. *)
Theorem profile_links_lead_back prefix rt0 rt m q w rt' :
  let info := tmpInfo prefix rt0 in
  let page := text_of (http.body (index_response ext prefix rt0 rt m q)) in
  Forall (fun prof =>
            let name := pprof.Name prof in
            let r := follow (prefix +:+ "debug/pprof/" +:+ name) "debug=1" in
            Contains page
              (anchor (prefix +:+ "debug/pprof/" +:+ name +:+ "?debug=1") name) /\
            h ext prefix info w r rt' = run ext info (selected name) w r rt' /\
            (~ In name [EmptyString; "cmdline"; "profile"; "symbol"] ->
             h ext prefix info w r rt' = nhpprof.Handler ext name w r rt'))
         (pprof.Profiles rt0).
Proof.
  cbv zeta; rewrite index_response_body.
  destruct (Execute_index_contents rt (tmpInfo prefix rt0)) as (_ & Hrows & _).
  cbn [tmpInfo Prefix Profiles] in Hrows.
  eapply List.Forall_impl; [|exact Hrows].
  intros prof Hrow; cbn beta in Hrow.
  split; [now apply Contains_row_anchor in Hrow|].
  rewrite h_run, name_of_follow.
  split; [reflexivity|].
  intros Hnot; rewrite selected_default; [reflexivity|..];
    intros E; apply Hnot; rewrite E; cbn; tauto.
Qed.

(** X10. The fixed links of the page reach the delegates they are
    labelled with, under any prefix: the CPU link runs [Profile], the
    [cmdline] and [symbol] links run [Cmdline] and [Symbol], and the
    goroutine link asks the named-profile handler for [goroutine]. *)
Theorem fixed_links_reach_delegates prefix rt0 rt m q w rt' :
  let info := tmpInfo prefix rt0 in
  let page := text_of (http.body (index_response ext prefix rt0 rt m q)) in
  let at_ := fun n => prefix +:+ "debug/pprof/" +:+ n in
  (Contains page (anchor (at_ "profile") "CPU") /\
   h ext prefix info w (follow (at_ "profile") EmptyString) rt' =
   nhpprof.Profile ext w (follow (at_ "profile") EmptyString) rt') /\
  (Contains page (anchor (at_ "cmdline") "cmdline") /\
   h ext prefix info w (follow (at_ "cmdline") EmptyString) rt' =
   nhpprof.Cmdline ext w (follow (at_ "cmdline") EmptyString) rt') /\
  (Contains page (anchor (at_ "symbol") "symbol") /\
   h ext prefix info w (follow (at_ "symbol") EmptyString) rt' =
   nhpprof.Symbol ext w (follow (at_ "symbol") EmptyString) rt') /\
  (Contains page (anchor (at_ "goroutine" +:+ "?debug=2")
                    "full goroutine stack dump") /\
   h ext prefix info w (follow (at_ "goroutine") "debug=2") rt' =
   nhpprof.Handler ext "goroutine" w (follow (at_ "goroutine") "debug=2") rt').
Proof.
  cbv zeta beta; rewrite index_response_body.
  destruct (Execute_index_contents rt (tmpInfo prefix rt0))
    as (_ & _ & Hcpu & Hinfo & Hgo & _).
  cbn [tmpInfo Prefix Info] in *.
  apply List.Forall_cons_iff in Hinfo as [Hcmd Hinfo].
  apply List.Forall_cons_iff in Hinfo as [Hsym _].
  rewrite !h_run, !name_of_follow.
  repeat split.
  - exact Hcpu.
  - now apply Contains_info_anchor in Hcmd.
  - now apply Contains_info_anchor in Hsym.
  - rewrite append_assoc; exact Hgo.
Qed.

End LinkFacts.

(** ** The further properties on sample data *)

Section MoreSamples.

Import Strings template.

Lemma no_cross_talk_witness :
  "/a/" <> "/b/" /\
  h Sample.ext "/b/" (tmpInfo "/b/" Sample.rt0) http.fresh
    (index_request "GET" "/a/" EmptyString) Sample.rt0 =
  nhpprof.Handler Sample.ext "/a/debug/pprof/" http.fresh
    (index_request "GET" "/a/" EmptyString) Sample.rt0.
Proof.
  split; [discriminate|].
  destruct (no_cross_talk Sample.ext "/a/" "/b/" (tmpInfo "/b/" Sample.rt0)
              http.fresh "GET" EmptyString Sample.rt0)
    as (name & u & _ & _ & Hsel & Hh); [discriminate|].
  injection Hsel as <-; exact Hh.
Defined.

Lemma Register_twice_witness :
  Register http.exact Sample.ext "/p/" Sample.no_routes Sample.rt0 =
    Some (<["/p/" := h Sample.ext "/p/" (tmpInfo "/p/" Sample.rt0)]> Sample.no_routes) /\
  Register http.exact Sample.ext "/p/"
    (<["/p/" := h Sample.ext "/p/" (tmpInfo "/p/" Sample.rt0)]> Sample.no_routes)
    Sample.rt1 = None.
Proof.
  split; [reflexivity|].
  apply (Register_twice http.exact Sample.ext "/p/" Sample.no_routes _
           Sample.rt0 Sample.rt1).
  reflexivity.
Defined.

Lemma Register_both_witness :
  exists m : http.ServeMux,
    (Register http.exact Sample.ext "/a/" Sample.no_routes Sample.rt0
       ≫= fun m1 => Register http.exact Sample.ext "/b/" m1 Sample.rt1) = Some m /\
    m !! "/a/" = Some (h Sample.ext "/a/" (tmpInfo "/a/" Sample.rt0)) /\
    m !! "/b/" = Some (h Sample.ext "/b/" (tmpInfo "/b/" Sample.rt1)).
Proof.
  eexists; split; [reflexivity|].
  destruct (Register_both http.exact Sample.ext "/a/" "/b/" Sample.no_routes _
              Sample.rt0 Sample.rt1 eq_refl) as (_ & Ha & Hb & _).
  split; [exact Ha|exact Hb].
Defined.

Lemma index_appends_witness :
  name_of "/p/" (Sample.get "/p/debug/pprof/") = EmptyString /\
  http.status
    (fst (h Sample.ext "/p/" (tmpInfo "/p/" Sample.rt0)
            (http.mkResponseWriter (Some 404%Z) [Static "not found"])
            (Sample.get "/p/debug/pprof/") Sample.rt0)) = Some 404%Z.
Proof.
  split; [reflexivity|].
  apply (index_appends Sample.ext "/p/" (tmpInfo "/p/" Sample.rt0)
           (http.mkResponseWriter (Some 404%Z) [Static "not found"])
           (Sample.get "/p/debug/pprof/") Sample.rt0 eq_refl).
Defined.

(** A profile the application has named [profile] is listed on the
    page, and its link runs the CPU profiler instead of its dump. *)
Example shadowed_profile_sample :
  let rt := pprof.mkRuntime [pprof.mkProfile "profile" 7] (fun _ => 1%Z) in
  dynamic_of (http.body (fst (h Sample.ext "/p/" (tmpInfo "/p/" rt) http.fresh
                                (follow "/p/debug/pprof/profile" "debug=1") rt))) =
  ["Profile"].
Proof. vm_compute; reflexivity. Qed.

(** The empty path renders the index. *)
Example empty_path_sample :
  fst (h Sample.ext "/p/" (tmpInfo "/p/" Sample.rt0) http.fresh
         (Sample.get EmptyString) Sample.rt0) =
  index_response Sample.ext "/p/" Sample.rt0 Sample.rt0 "GET" EmptyString.
Proof. vm_compute; reflexivity. Qed.

End MoreSamples.
